(** * Filmovi API: the five CRUD handlers of [index.js] over a model of the
      [filmovi] table.

    The handlers are embedded as small programs that issue parameterised
    queries ([pool.query(sql, values)]) and finally send a response.  The
    storage engine behind the pool is not part of the repository; it is
    modelled below for exactly the five statements the handlers send. *)

From Stdlib Require Import Ascii String ZArith List Sorted.
From Stdlib Require Import DecimalString DecimalPos DecimalN.
From stdpp Require Import gmap strings list.

Local Open Scope string_scope.
Local Open Scope Z_scope.

(** ** JavaScript values *)

(** The values a request carries in its JSON body or that a handler reads
    from a query result: [undefined], [null], booleans, numbers (the
    integers of the Movie schema) and strings.  Arrays and objects, which
    no Movie field holds, are left out. *)
Inductive jsval :=
  | JUndefined
  | JNull
  | JBool (b : bool)
  | JNum (n : Z)
  | JStr (s : string).

(** [!v] *)
Definition falsy (v : jsval) : bool :=
  match v with
  | JUndefined | JNull => true
  | JBool b => negb b
  | JNum n => n =? 0
  | JStr s => String.eqb s ""
  end.

(** [a === b] *)
Definition strict_eq (a b : jsval) : bool :=
  match a, b with
  | JUndefined, JUndefined => true
  | JNull, JNull => true
  | JBool x, JBool y => Bool.eqb x y
  | JNum x, JNum y => x =? y
  | JStr x, JStr y => String.eqb x y
  | _, _ => false
  end.

(** [req.params.id] and [req.body]; the body is the object parsed by
    [express.json()]. *)
Record request := {
  params_id : string;
  body : gmap string jsval
}.

(** Property read [o.k]: a missing key reads as [undefined]. *)
Definition prop (o : gmap string jsval) (k : string) : jsval :=
  default JUndefined (o !! k).

(** ** Rows and query results *)

Inductive sqlval :=
  | SNull
  | SInt (n : Z)
  | SStr (s : string)
  | STime (t : Z).

(** One row of [filmovi(id, naslov, godina, zanr, created_at)]. *)
Record Movie := {
  id : Z;
  naslov : sqlval;
  godina : sqlval;
  zanr : sqlval;
  created_at : sqlval
}.

(** What [pool.query] resolves to (its first component): the row array of
    a SELECT, or the header of an INSERT, UPDATE or DELETE. *)
Inductive qresult :=
  | Rows (rows : list Movie)
  | ResultSetHeader (affected inserted : Z).

(** [result.affectedRows] *)
Definition affectedRows (r : qresult) : jsval :=
  match r with
  | ResultSetHeader a _ => JNum a
  | Rows _ => JUndefined
  end.

(** [result.insertId] *)
Definition insertId (r : qresult) : jsval :=
  match r with
  | ResultSetHeader _ i => JNum i
  | Rows _ => JUndefined
  end.

(** [rows.length] *)
Definition rows_length (r : qresult) : jsval :=
  match r with
  | Rows l => JNum (Z.of_nat (length l))
  | ResultSetHeader _ _ => JUndefined
  end.

(** [rows[0]]; [None] is [undefined]. *)
Definition rows_0 (r : qresult) : option Movie :=
  match r with
  | Rows l => head l
  | ResultSetHeader _ _ => None
  end.

(** ** Handlers *)

(** What a handler hands to [res]: [res.json(rows)], [res.json(rows[0])],
    [res.json({ message })] or [res.send()]. *)
Inductive resbody :=
  | JsonResult (r : qresult)
  | JsonRow (r : option Movie)
  | JsonMessage (message : string)
  | NoBody.

(** A handler: it awaits queries on the pool and then responds. *)
Inductive io :=
  | Respond (status : Z) (b : resbody)
  | Query (sql : string) (values : list jsval) (k : qresult -> io).

Definition SELECT_ALL : string := "SELECT * FROM filmovi".
Definition SELECT_BY_ID : string := "SELECT * FROM filmovi WHERE id = ?".
Definition INSERT : string :=
  "INSERT INTO filmovi (naslov, godina, zanr) VALUES (?, ?, ?)".
Definition UPDATE : string :=
  "UPDATE filmovi SET naslov = COALESCE(?, naslov), godina = COALESCE(?, godina), zanr = COALESCE(?, zanr) WHERE id = ?".
Definition DELETE : string := "DELETE FROM filmovi WHERE id = ?".

Definition not_found : resbody := JsonMessage "Film nije pronađen".

(** [app.get('/filmovi', ...)] *)
Definition get_filmovi (req : request) : io :=
  Query SELECT_ALL [] (fun rows =>
  Respond 200 (JsonResult rows)).

(** [app.get('/filmovi/:id', ...)] *)
Definition get_filmovi_id (req : request) : io :=
  Query SELECT_BY_ID [JStr (params_id req)] (fun rows =>
  if falsy (rows_length rows) then Respond 404 not_found
  else Respond 200 (JsonRow (rows_0 rows))).

(** [app.post('/filmovi', ...)] *)
Definition post_filmovi (req : request) : io :=
  let naslov := prop (body req) "naslov" in
  let godina := prop (body req) "godina" in
  let zanr := prop (body req) "zanr" in
  Query INSERT [naslov; godina; zanr] (fun result =>
  Query SELECT_BY_ID [insertId result] (fun rows =>
  Respond 201 (JsonRow (rows_0 rows)))).

(** [app.put('/filmovi/:id', ...)] *)
Definition put_filmovi_id (req : request) : io :=
  let naslov := prop (body req) "naslov" in
  let godina := prop (body req) "godina" in
  let zanr := prop (body req) "zanr" in
  Query UPDATE [naslov; godina; zanr; JStr (params_id req)] (fun result =>
  if strict_eq (affectedRows result) (JNum 0) then Respond 404 not_found
  else
    Query SELECT_BY_ID [JStr (params_id req)] (fun rows =>
    Respond 200 (JsonRow (rows_0 rows)))).

(** [app.delete('/filmovi/:id', ...)] *)
Definition delete_filmovi_id (req : request) : io :=
  Query DELETE [JStr (params_id req)] (fun result =>
  if strict_eq (affectedRows result) (JNum 0) then Respond 404 not_found
  else Respond 204 NoBody).

(** The five operations of the API and their handlers. *)
Inductive route := List_ | GetById | Create | Update | Delete.

Definition handler (r : route) : request -> io :=
  match r with
  | List_ => get_filmovi
  | GetById => get_filmovi_id
  | Create => post_filmovi
  | Update => put_filmovi_id
  | Delete => delete_filmovi_id
  end.

(** The statements an operation sends, in the order it sends them. *)
Definition statements (r : route) : list string :=
  match r with
  | List_ => [SELECT_ALL]
  | GetById => [SELECT_BY_ID]
  | Create => [INSERT; SELECT_BY_ID]
  | Update => [UPDATE; SELECT_BY_ID]
  | Delete => [DELETE]
  end.

(** Two handlers send the same SQL text whenever the pool answers them
    alike: neither the text of a query nor the decision to send one
    depends on anything but the answers received so far. *)
Fixpoint same_sql (p q : io) : Prop :=
  match p, q with
  | Respond _ _, Respond _ _ => True
  | Query s _ k, Query s' _ k' => s = s' /\ forall r, same_sql (k r) (k' r)
  | _, _ => False
  end.

(** ** The storage behind the pool *)

(** Modelled from the spec: the table
    [filmovi(id PK autoincrement, naslov, godina, zanr, created_at)] and the
    engine that answers the pool are external to the repository.  The model
    keeps the rows in insertion order, the next auto-increment value and
    the engine's clock, from which [created_at] is taken.  A cell keeps
    the value bound for it: conversions to a declared column type and
    length limits are not modelled. *)
Record Db := {
  filmovi : list Movie;
  auto_increment : Z;
  clock : Z
}.

Definition empty_db (now : Z) : Db :=
  {| filmovi := []; auto_increment := 1; clock := now |}.

(** The value the driver binds for a placeholder: [undefined] and [null]
    become NULL, booleans the numbers 1 and 0. *)
Definition bind (v : jsval) : sqlval :=
  match v with
  | JUndefined | JNull => SNull
  | JBool b => SInt (if b then 1 else 0)
  | JNum n => SInt n
  | JStr s => SStr s
  end.

(** [COALESCE(v, old)] *)
Definition COALESCE (v old : sqlval) : sqlval :=
  match v with
  | SNull => old
  | _ => v
  end.

(** The row written by the UPDATE statement in place of [m]. *)
Definition set_columns (n g z : jsval) (m : Movie) : Movie :=
  {| id := id m;
     naslov := COALESCE (bind n) (naslov m);
     godina := COALESCE (bind g) (godina m);
     zanr := COALESCE (bind z) (zanr m);
     created_at := created_at m |}.

(** The three columns a request can set, the key of each in the request
    body and its cell in a row. *)
Inductive column := Naslov | Godina | Zanr.

Definition column_key (c : column) : string :=
  match c with
  | Naslov => "naslov"
  | Godina => "godina"
  | Zanr => "zanr"
  end.

Definition cell (c : column) (m : Movie) : sqlval :=
  match c with
  | Naslov => naslov m
  | Godina => godina m
  | Zanr => zanr m
  end.

(** The path segment a client writes for an id, in decimal numerals, and
    a reader of such numerals: one instance of the engine's conversion of
    a string that is compared with the [id] column. *)
Definition path_of_id (i : Z) : string :=
  NilZero.string_of_uint (N.to_uint (Z.to_N i)).

Definition read_decimal (s : string) : option Z :=
  option_map (fun d => Z.of_N (N.of_uint d)) (NilZero.uint_of_string s).

(** The request of the spec's scenario, and the same request with an [id]
    and a [created_at] of the client's choosing added to its body. *)
Definition inception : request :=
  {| params_id := "";
     body := {[ "naslov" := JStr "Inception";
                "godina" := JNum 2010;
                "zanr" := JStr "Sci-Fi" ]} |}.

Definition inception_with_id : request :=
  {| params_id := "";
     body := {[ "naslov" := JStr "Inception";
                "godina" := JNum 2010;
                "zanr" := JStr "Sci-Fi";
                "id" := JNum 99;
                "created_at" := JStr "1999-01-01" ]} |}.

(** A table that holds the film of the scenario, and a request to a path
    with an id. *)
Definition inception_row : Movie :=
  {| id := 1; naslov := SStr "Inception"; godina := SInt 2010;
     zanr := SStr "Sci-Fi"; created_at := STime 7 |}.

Definition one_film : Db :=
  {| filmovi := [inception_row]; auto_increment := 2; clock := 7 |}.

Definition at_path (p : string) (b : gmap string jsval) : request :=
  {| params_id := p; body := b |}.

(** ** The port and the liveness route *)

(** [String(v)], as string concatenation and template literals apply it;
    integers print in decimal. *)
Definition to_string (v : jsval) : string :=
  match v with
  | JUndefined => "undefined"
  | JNull => "null"
  | JBool b => if b then "true" else "false"
  | JNum n => NilZero.string_of_int (Z.to_int n)
  | JStr s => s
  end.

(** [process.env.PORT || 3000]; an environment variable is a string or
    [undefined]. *)
Definition port (env_PORT : option string) : jsval :=
  let v := match env_PORT with Some s => JStr s | None => JUndefined end in
  if falsy v then JNum 3000 else v.

(** The text [app.get('/', ...)] sends. *)
Definition root_message (env_PORT : option string) : string :=
  String.append "✅ Server je živ na portu " (to_string (port env_PORT)).

(** The server url of the OpenAPI definition. *)
Definition server_url (env_PORT : option string) : string :=
  String.append "http://localhost:" (to_string (port env_PORT)).

(** The number of [?] placeholders in a statement. *)
Fixpoint placeholders (sql : string) : nat :=
  match sql with
  | EmptyString => 0%nat
  | String c sql' =>
      ((if Ascii.eqb c "?"%char then 1 else 0) + placeholders sql')%nat
  end.

Section Storage.

(** The integer the engine reads a string as when it compares it with
    the integer column [id], if it reads one. *)
Variable str_num : string -> option Z.

(** Whether the schema declares [naslov] NOT NULL. *)
Variable naslov_required : bool.

(** [id = ?] for a bound value and the [id] of a row; a comparison with
    NULL selects nothing. *)
Definition id_eq (v : jsval) (i : Z) : bool :=
  match v with
  | JUndefined | JNull => false
  | JBool b => (if b then 1 else 0) =? i
  | JNum n => n =? i
  | JStr s => match str_num s with Some n => n =? i | None => false end
  end.

Definition selects (v : jsval) (m : Movie) : bool := id_eq v (id m).

(** Modelled from the spec: the engine behind [pool.query(sql, values)]
    is external to the repository.  It answers the five statements of
    the handlers by the meaning of their SQL text over the table, and
    rejects ([None]) any other text, a statement with too few values and
    an INSERT of a NULL [naslov] under a NOT NULL constraint.  The header
    of an UPDATE counts the rows matched by its WHERE clause (the driver
    connects with the found-rows flag). *)
Definition pool_query (sql : string) (values : list jsval) (db : Db)
  : option (qresult * Db) :=
  if String.eqb sql SELECT_ALL then
    Some (Rows (filmovi db), db)
  else if String.eqb sql SELECT_BY_ID then
    match values with
    | v :: _ => Some (Rows (List.filter (selects v) (filmovi db)), db)
    | [] => None
    end
  else if String.eqb sql INSERT then
    match values with
    | n :: g :: z :: _ =>
        match bind n, naslov_required with
        | SNull, true => None
        | _, _ =>
            let m := {| id := auto_increment db;
                        naslov := bind n;
                        godina := bind g;
                        zanr := bind z;
                        created_at := STime (clock db) |} in
            Some (ResultSetHeader 1 (id m),
                  {| filmovi := filmovi db ++ [m];
                     auto_increment := auto_increment db + 1;
                     clock := clock db |})
        end
    | _ => None
    end
  else if String.eqb sql UPDATE then
    match values with
    | n :: g :: z :: v :: _ =>
        let hit := List.filter (selects v) (filmovi db) in
        Some (ResultSetHeader (Z.of_nat (length hit)) 0,
              {| filmovi :=
                   List.map (fun m => if selects v m then set_columns n g z m
                                      else m) (filmovi db);
                 auto_increment := auto_increment db;
                 clock := clock db |})
    | _ => None
    end
  else if String.eqb sql DELETE then
    match values with
    | v :: _ =>
        let hit := List.filter (selects v) (filmovi db) in
        Some (ResultSetHeader (Z.of_nat (length hit)) 0,
              {| filmovi :=
                   List.filter (fun m => negb (selects v m)) (filmovi db);
                 auto_increment := auto_increment db;
                 clock := clock db |})
    | [] => None
    end
  else None.

(** ** Running a handler against the storage *)

(** The response sent, or the rejection of a query that no handler
    catches. *)
Inductive outcome :=
  | Sent (status : Z) (b : resbody)
  | Rejected.

(** Runs a handler: the outcome, the state left behind and the queries
    issued, in order. *)
Fixpoint run (p : io) (db : Db)
  : outcome * Db * list (string * list jsval) :=
  match p with
  | Respond status b => (Sent status b, db, [])
  | Query sql values k =>
      match pool_query sql values db with
      | None => (Rejected, db, [(sql, values)])
      | Some (r, db') =>
          let '(o, db'', t) := run (k r) db' in
          (o, db'', (sql, values) :: t)
      end
  end.

Definition response (p : io) (db : Db) : outcome := (run p db).1.1.
Definition after (p : io) (db : Db) : Db := (run p db).1.2.
Definition queries (p : io) (db : Db) : list (string * list jsval) :=
  (run p db).2.

(** The ids in the table, in row order. *)
Definition ids (db : Db) : list Z := List.map id (filmovi db).

(** The primary key and the auto-increment counter: ids are positive,
    pairwise distinct and below the next value to be issued.  The empty
    table satisfies it and every handler preserves it. *)
Definition wf (db : Db) : Prop :=
  0 < auto_increment db /\
  NoDup (ids db) /\
  Forall (fun i => 0 < i < auto_increment db) (ids db).

(** ** Sessions *)

(** Requests served one after another; the log keeps each request with
    the outcome it got. *)
Fixpoint session (reqs : list (route * request)) (db : Db)
  : list (route * request * outcome) * Db :=
  match reqs with
  | [] => ([], db)
  | (r, req) :: rest =>
      let o := response (handler r req) db in
      let '(log, db') := session rest (after (handler r req) db) in
      ((r, req, o) :: log, db')
  end.

(** Read off the responses alone: the ids handed out by the creations
    answered 201, without those that a deletion answered 204 addressed
    afterwards. *)
Fixpoint created_not_deleted (log : list (route * request * outcome))
  (live : list Z) : list Z :=
  match log with
  | [] => live
  | (Create, _, Sent 201 (JsonRow (Some m))) :: log' =>
      created_not_deleted log' (live ++ [id m])
  | (Delete, req, Sent 204 _) :: log' =>
      created_not_deleted log'
        (List.filter (fun i => negb (id_eq (JStr (params_id req)) i)) live)
  | _ :: log' => created_not_deleted log' live
  end.

(** The ids in the answers to the creations of a log, in order. *)
Fixpoint created_ids (log : list (route * request * outcome)) : list Z :=
  match log with
  | [] => []
  | (Create, _, Sent 201 (JsonRow (Some m))) :: log' =>
      id m :: created_ids log'
  | _ :: log' => created_ids log'
  end.

(** ** The engine's answers, statement by statement *)

Lemma query_select_all values db :
  pool_query SELECT_ALL values db = Some (Rows (filmovi db), db).
Proof. reflexivity. Qed.

Lemma query_select_by_id v values db :
  pool_query SELECT_BY_ID (v :: values) db
  = Some (Rows (List.filter (selects v) (filmovi db)), db).
Proof. reflexivity. Qed.

Lemma query_insert n g z values db :
  pool_query INSERT (n :: g :: z :: values) db
  = match bind n, naslov_required with
    | SNull, true => None
    | _, _ =>
        Some (ResultSetHeader 1 (auto_increment db),
              {| filmovi :=
                   filmovi db ++ [ {| id := auto_increment db;
                                      naslov := bind n;
                                      godina := bind g;
                                      zanr := bind z;
                                      created_at := STime (clock db) |} ];
                 auto_increment := auto_increment db + 1;
                 clock := clock db |})
    end.
Proof. reflexivity. Qed.

Lemma query_update n g z v values db :
  pool_query UPDATE (n :: g :: z :: v :: values) db
  = Some (ResultSetHeader
            (Z.of_nat (length (List.filter (selects v) (filmovi db)))) 0,
          {| filmovi :=
               List.map (fun m => if selects v m then set_columns n g z m
                                  else m) (filmovi db);
             auto_increment := auto_increment db;
             clock := clock db |}).
Proof. reflexivity. Qed.

Lemma query_delete v values db :
  pool_query DELETE (v :: values) db
  = Some (ResultSetHeader
            (Z.of_nat (length (List.filter (selects v) (filmovi db)))) 0,
          {| filmovi :=
               List.filter (fun m => negb (selects v m)) (filmovi db);
             auto_increment := auto_increment db;
             clock := clock db |}).
Proof. reflexivity. Qed.

Lemma db_eta db :
  {| filmovi := filmovi db; auto_increment := auto_increment db;
     clock := clock db |} = db.
Proof. by destruct db. Qed.

(** ** Selections over the rows *)

Lemma filter_none_hit {A} (f : A -> bool) (l : list A) :
  List.filter f l = [] -> List.filter (fun x => negb (f x)) l = l.
Proof.
  induction l as [|x l IH]; simpl; [done|].
  destruct (f x); simpl; [done|]. intros H. by rewrite IH.
Qed.

Lemma map_none_hit {A} (f : A -> bool) (g : A -> A) (l : list A) :
  List.filter f l = [] -> List.map (fun x => if f x then g x else x) l = l.
Proof.
  induction l as [|x l IH]; simpl; [done|].
  destruct (f x); simpl; [done|]. intros H. by rewrite IH.
Qed.

Lemma filter_hit_gone {A} (f : A -> bool) (l : list A) :
  List.filter f (List.filter (fun x => negb (f x)) l) = [].
Proof.
  induction l as [|x l IH]; simpl; [done|].
  destruct (f x) eqn:E; simpl; [done|]. by rewrite E.
Qed.

Lemma length_zero_nil {A} (l : list A) : Z.of_nat (length l) = 0 <-> l = [].
Proof. destruct l; simpl; split; intros; try done; lia. Qed.

Lemma eqb_length_nil {A} (l : list A) :
  (Z.of_nat (length l) =? 0) = true <-> l = [].
Proof. rewrite Z.eqb_eq. apply length_zero_nil. Qed.

Lemma selects_set_columns v n g z m :
  selects v (set_columns n g z m) = selects v m.
Proof. reflexivity. Qed.

Lemma filter_updated v n g z (l : list Movie) :
  List.filter (selects v)
    (List.map (fun m => if selects v m then set_columns n g z m else m) l)
  = List.map (set_columns n g z) (List.filter (selects v) l).
Proof.
  induction l as [|m l IH]; simpl; [done|].
  destruct (selects v m) eqn:E; simpl.
  - rewrite selects_set_columns, E. simpl. by rewrite IH.
  - by rewrite E, IH.
Qed.

(** ** One run of each handler *)

Lemma run_query sql values k db :
  run (Query sql values k) db
  = match pool_query sql values db with
    | None => (Rejected, db, [(sql, values)])
    | Some (r, db') =>
        let '(o, db'', t) := run (k r) db' in (o, db'', (sql, values) :: t)
    end.
Proof. reflexivity. Qed.

Lemma run_respond status b db :
  run (Respond status b) db = (Sent status b, db, []).
Proof. reflexivity. Qed.

Lemma get_filmovi_run db req :
  run (get_filmovi req) db
  = (Sent 200 (JsonResult (Rows (filmovi db))), db, [(SELECT_ALL, [])]).
Proof.
  unfold get_filmovi. by rewrite run_query, query_select_all, run_respond.
Qed.

Lemma get_filmovi_id_run db req :
  run (get_filmovi_id req) db
  = (match List.filter (selects (JStr (params_id req))) (filmovi db) with
     | [] => Sent 404 not_found
     | m :: _ => Sent 200 (JsonRow (Some m))
     end, db, [(SELECT_BY_ID, [JStr (params_id req)])]).
Proof.
  unfold get_filmovi_id. rewrite run_query, query_select_by_id.
  by destruct (List.filter _ _).
Qed.

Lemma delete_filmovi_id_run db req :
  run (delete_filmovi_id req) db
  = (if Z.of_nat (length (List.filter (selects (JStr (params_id req)))
                            (filmovi db))) =? 0
     then Sent 404 not_found else Sent 204 NoBody,
     {| filmovi := List.filter
                     (fun m => negb (selects (JStr (params_id req)) m))
                     (filmovi db);
        auto_increment := auto_increment db;
        clock := clock db |},
     [(DELETE, [JStr (params_id req)])]).
Proof.
  unfold delete_filmovi_id. rewrite run_query, query_delete.
  cbn [affectedRows strict_eq].
  by destruct (_ =? 0).
Qed.

Lemma put_filmovi_id_run db req :
  let n := prop (body req) "naslov" in
  let g := prop (body req) "godina" in
  let z := prop (body req) "zanr" in
  let v := JStr (params_id req) in
  let hit := List.filter (selects v) (filmovi db) in
  let db' := {| filmovi :=
                  List.map (fun m => if selects v m then set_columns n g z m
                                     else m) (filmovi db);
                auto_increment := auto_increment db;
                clock := clock db |} in
  run (put_filmovi_id req) db
  = if Z.of_nat (length hit) =? 0
    then (Sent 404 not_found, db', [(UPDATE, [n; g; z; v])])
    else (Sent 200 (JsonRow (head (List.map (set_columns n g z) hit))), db',
          [(UPDATE, [n; g; z; v]); (SELECT_BY_ID, [v])]).
Proof.
  intros n g z v hit db'.
  unfold put_filmovi_id. rewrite run_query, query_update.
  cbn [affectedRows strict_eq]. fold n g z v hit db'.
  destruct (_ =? 0); [done|].
  rewrite run_query, query_select_by_id, run_respond.
  subst db'. cbn [rows_0 filmovi]. by rewrite filter_updated.
Qed.

Lemma post_filmovi_run db req :
  let n := prop (body req) "naslov" in
  let g := prop (body req) "godina" in
  let z := prop (body req) "zanr" in
  let m := {| id := auto_increment db; naslov := bind n; godina := bind g;
              zanr := bind z; created_at := STime (clock db) |} in
  let db' := {| filmovi := filmovi db ++ [m];
                auto_increment := auto_increment db + 1;
                clock := clock db |} in
  run (post_filmovi req) db
  = match bind n, naslov_required with
    | SNull, true => (Rejected, db, [(INSERT, [n; g; z])])
    | _, _ =>
        (Sent 201 (JsonRow (head (List.filter
                                    (selects (JNum (auto_increment db)))
                                    (filmovi db')))),
         db',
         [(INSERT, [n; g; z]); (SELECT_BY_ID, [JNum (auto_increment db)])])
    end.
Proof.
  intros n g z m db'.
  unfold post_filmovi. rewrite run_query, query_insert. fold n g z m db'.
  destruct (bind n), naslov_required; try done;
    by rewrite run_query, query_select_by_id, run_respond.
Qed.

Lemma selects_path pid i :
  str_num pid = Some i ->
  forall m, selects (JStr pid) m = selects (JNum i) m.
Proof. intros H m. unfold selects, id_eq. by rewrite H. Qed.

(** The row a creation re-reads is the one it inserted, as the new id is
    not in use. *)
Lemma select_inserted db m :
  wf db -> id m = auto_increment db ->
  List.filter (selects (JNum (auto_increment db))) (filmovi db ++ [m]) = [m].
Proof.
  intros (_ & _ & Hlt) Hid. rewrite List.filter_app. unfold ids in Hlt.
  assert (List.filter (selects (JNum (auto_increment db))) (filmovi db) = [])
    as ->.
  { induction (filmovi db) as [|x l IH]; [done|].
    cbn [List.map] in Hlt. apply Forall_cons in Hlt as [Hx Hl].
    cbn [List.filter]. unfold selects at 1. cbn [id_eq].
    destruct (Z.eqb_spec (auto_increment db) (id x)); [lia | by apply IH]. }
  cbn [List.filter app]. unfold selects, id_eq.
  by rewrite Hid, Z.eqb_refl.
Qed.

(** ** Reads *)

(** C10: [list()] and [getById(id)] never modify the table: for every
    state of the storage and every request, the state after the handler
    ran is the state before it. *)
Theorem reads_leave_storage_unchanged (db : Db) (req : request) :
  after (get_filmovi req) db = db /\ after (get_filmovi_id req) db = db.
Proof.
  unfold after. by rewrite get_filmovi_run, get_filmovi_id_run.
Qed.

(** What [getById] answers: 404 with the message when the selection is
    empty, else 200 with its first row. *)
Lemma get_filmovi_id_response db req :
  response (get_filmovi_id req) db
  = match List.filter (selects (JStr (params_id req))) (filmovi db) with
    | [] => Sent 404 not_found
    | m :: _ => Sent 200 (JsonRow (Some m))
    end.
Proof.
  unfold response. by rewrite get_filmovi_id_run.
Qed.

(** ** Delete *)

(** C5: [delete(id)] followed at once by [getById(id)] of the same id
    yields the not-found outcome, 404 with the message, whatever the
    table held and whether or not the delete found a row. *)
Theorem delete_then_get_not_found (db : Db) (pid : string)
    (b1 b2 : gmap string jsval) :
  response (get_filmovi_id {| params_id := pid; body := b2 |})
    (after (delete_filmovi_id {| params_id := pid; body := b1 |}) db)
  = Sent 404 not_found.
Proof.
  rewrite get_filmovi_id_response. unfold after.
  rewrite delete_filmovi_id_run. cbn [fst snd filmovi].
  by rewrite filter_hit_gone.
Qed.

(** C6: [delete(id)] answers 404 with the message exactly when the
    engine reports zero affected rows, and then the table, hence its row
    count, is as before; otherwise it answers 204 with no body. *)
Theorem delete_outcome (db : Db) (req : request) :
  exists a i db',
    pool_query DELETE [JStr (params_id req)] db
      = Some (ResultSetHeader a i, db') /\
    after (delete_filmovi_id req) db = db' /\
    (response (delete_filmovi_id req) db = Sent 404 not_found <-> a = 0) /\
    (a = 0 ->
       length (filmovi db') = length (filmovi db) /\ filmovi db' = filmovi db) /\
    (a <> 0 -> response (delete_filmovi_id req) db = Sent 204 NoBody).
Proof.
  eexists _, _, _. split; [apply query_delete|].
  unfold response, after. rewrite delete_filmovi_id_run.
  cbn [fst snd filmovi].
  split; [done|].
  destruct (_ =? 0) eqn:E.
  - apply Z.eqb_eq in E. split; [done|]. split; [|done].
    intros _. apply length_zero_nil in E.
    by rewrite (filter_none_hit _ _ E).
  - apply Z.eqb_neq in E. split; [split; [done | intros; lia]|].
    split; [intros; lia | done].
Qed.

(** ** Update *)

(** C3: [update(id, fields)] answers 404 with the message if and only
    if no row matched the id, and then the storage is left as it was;
    otherwise it answers 200 with the updated row, which is the row the
    storage returns for that id after the update. *)
Theorem update_outcome (db : Db) (req : request) :
  let n := prop (body req) "naslov" in
  let g := prop (body req) "godina" in
  let z := prop (body req) "zanr" in
  let v := JStr (params_id req) in
  let hit := List.filter (selects v) (filmovi db) in
  let db' := after (put_filmovi_id req) db in
  (response (put_filmovi_id req) db = Sent 404 not_found <-> hit = []) /\
  (hit = [] -> db' = db) /\
  (hit <> [] ->
     exists m0 m rest,
       head hit = Some m0 /\ m = set_columns n g z m0 /\
       pool_query SELECT_BY_ID [v] db' = Some (Rows (m :: rest), db') /\
       response (put_filmovi_id req) db = Sent 200 (JsonRow (Some m))).
Proof.
  intros n g z v hit db'. subst db'. unfold response, after.
  rewrite put_filmovi_id_run. fold n g z v hit.
  destruct hit as [|m0 rest] eqn:E.
  - cbn [length Z.of_nat Z.eqb fst snd]. split; [done|]. split; [|done].
    intros _. subst hit. rewrite (map_none_hit _ _ _ E). apply db_eta.
  - replace (Z.of_nat (length (m0 :: rest)) =? 0) with false
      by (symmetry; apply Z.eqb_neq; cbn [length]; lia).
    cbn [fst snd]. split; [done|]. split; [done|]. intros _.
    exists m0, (set_columns n g z m0), (List.map (set_columns n g z) rest).
    split; [done|]. split; [done|]. split; [|done].
    rewrite query_select_by_id. cbn [filmovi].
    rewrite filter_updated. fold hit. by rewrite E.
Qed.

(** C4: an update changes, in the rows its id selects, exactly the
    columns the body gives a non-null value for: such a column takes the
    bound value, a column that is absent or null in the body keeps its
    value, and so do [id] and [created_at]; every other row is
    unchanged and no row is added or removed.  In particular a body that
    holds [naslov] alone leaves [godina] and [zanr] as they were. *)
Theorem update_sets_given_columns_only (db : Db) (req : request) :
  let v := JStr (params_id req) in
  let db' := after (put_filmovi_id req) db in
  length (filmovi db') = length (filmovi db) /\
  forall (i : nat) (m : Movie),
    filmovi db !! i = Some m ->
    exists m',
      filmovi db' !! i = Some m' /\
      id m' = id m /\ created_at m' = created_at m /\
      (selects v m = false -> m' = m) /\
      (selects v m = true ->
         (forall c x,
            body req !! column_key c = Some x ->
            x <> JNull -> x <> JUndefined ->
            cell c m' = bind x) /\
         (forall c,
            body req !! column_key c = None \/
            body req !! column_key c = Some JNull ->
            cell c m' = cell c m) /\
         (forall X,
            body req = {[ "naslov" := X ]} ->
            godina m' = godina m /\ zanr m' = zanr m)).
Proof.
  intros v db'.
  assert (filmovi db'
          = List.map (fun m => if selects v m
                               then set_columns (prop (body req) "naslov")
                                      (prop (body req) "godina")
                                      (prop (body req) "zanr") m
                               else m) (filmovi db)) as Hrows.
  { subst db'. unfold after. rewrite put_filmovi_id_run.
    by destruct (_ =? 0). }
  rewrite Hrows. split; [apply length_map|].
  intros i m Hi.
  eexists. split; [by rewrite list_lookup_fmap, Hi|].
  destruct (selects v m) eqn:E.
  - split; [done|]. split; [done|]. split; [done|]. intros _.
    assert (forall c, cell c (set_columns (prop (body req) "naslov")
                                (prop (body req) "godina")
                                (prop (body req) "zanr") m)
                      = COALESCE (bind (prop (body req) (column_key c)))
                          (cell c m)) as Hcell by (by intros []).
    split; [|split].
    + intros c x Hx Hnull Hundef. rewrite Hcell. unfold prop. rewrite Hx.
      by destruct x.
    + intros c Hc. rewrite Hcell. unfold prop.
      by destruct Hc as [-> | ->].
    + intros X HX.
      pose proof (Hcell Godina) as Hg. pose proof (Hcell Zanr) as Hz.
      cbn [cell column_key] in Hg, Hz. rewrite Hg, Hz.
      unfold prop. rewrite HX.
      by rewrite !lookup_singleton_ne.
  - done.
Qed.

(** ** Create *)

(** The run of a creation the storage accepts. *)
Lemma post_filmovi_accepted db req :
  wf db ->
  naslov_required = false \/ bind (prop (body req) "naslov") <> SNull ->
  let m := {| id := auto_increment db;
              naslov := bind (prop (body req) "naslov");
              godina := bind (prop (body req) "godina");
              zanr := bind (prop (body req) "zanr");
              created_at := STime (clock db) |} in
  run (post_filmovi req) db
  = (Sent 201 (JsonRow (Some m)),
     {| filmovi := filmovi db ++ [m];
        auto_increment := auto_increment db + 1;
        clock := clock db |},
     [(INSERT, [prop (body req) "naslov"; prop (body req) "godina";
                prop (body req) "zanr"]);
      (SELECT_BY_ID, [JNum (auto_increment db)])]).
Proof.
  intros Hwf Hok. cbn zeta. rewrite post_filmovi_run. cbn [filmovi].
  rewrite select_inserted by done.
  destruct (bind (prop (body req) "naslov")) eqn:E, naslov_required;
    try done.
  by destruct Hok.
Qed.

(** C7: a creation the storage accepts appends exactly one row, whose
    [id] and [created_at] come from the storage (the next auto-increment
    value, not in use before, and the clock) and whose other columns are
    the bound body values; the answer is 201 with that row, which is what
    the storage returns when asked for the generated id. *)
Theorem create_inserts_one_row (db : Db) (req : request) :
  wf db ->
  naslov_required = false \/ bind (prop (body req) "naslov") <> SNull ->
  exists m,
    filmovi (after (post_filmovi req) db) = (filmovi db ++ [m])%list /\
    id m = auto_increment db /\
    ~ In (id m) (ids db) /\
    created_at m = STime (clock db) /\
    (forall c, cell c m = bind (prop (body req) (column_key c))) /\
    pool_query SELECT_BY_ID [JNum (id m)] (after (post_filmovi req) db)
      = Some (Rows [m], after (post_filmovi req) db) /\
    response (post_filmovi req) db = Sent 201 (JsonRow (Some m)).
Proof.
  intros Hwf Hok. unfold response, after.
  rewrite (post_filmovi_accepted db req Hwf Hok). cbn [fst snd filmovi].
  eexists. split; [done|]. cbn [id created_at].
  split; [done|]. split.
  { destruct Hwf as (_ & _ & Hlt). rewrite Forall_forall in Hlt.
    intros Hin%list_elem_of_In%Hlt. lia. }
  split; [done|]. split; [by intros []|]. split; [|done].
  rewrite query_select_by_id. cbn [filmovi].
  by rewrite select_inserted by done.
Qed.

(** C2: when a movie with a title [n], a year [g] and a genre [z] is
    created, the answer carries a row with a generated id, and reading
    that id back (by a path segment the storage reads as that id) answers
    200 with a row whose [naslov], [godina] and [zanr] are [n], [g] and
    [z], whose [id] is the generated one and whose [created_at] is set. *)
Theorem create_then_get_by_id (db : Db) (req : request)
    (n : string) (g : Z) (z : string) :
  wf db ->
  body req !! "naslov" = Some (JStr n) ->
  body req !! "godina" = Some (JNum g) ->
  body req !! "zanr" = Some (JStr z) ->
  exists m,
    response (post_filmovi req) db = Sent 201 (JsonRow (Some m)) /\
    0 < id m /\
    forall (pid : string) (b : gmap string jsval),
      str_num pid = Some (id m) ->
      exists m',
        response (get_filmovi_id {| params_id := pid; body := b |})
          (after (post_filmovi req) db)
        = Sent 200 (JsonRow (Some m')) /\
        naslov m' = SStr n /\ godina m' = SInt g /\ zanr m' = SStr z /\
        id m' = id m /\ created_at m' <> SNull.
Proof.
  intros Hwf Hn Hg Hz.
  assert (naslov_required = false \/ bind (prop (body req) "naslov") <> SNull)
    as Hok by (right; unfold prop; by rewrite Hn).
  pose proof (post_filmovi_accepted db req Hwf Hok) as Hrun.
  cbn zeta in Hrun. unfold response, after. rewrite Hrun. cbn [fst snd].
  eexists. split; [done|]. cbn [id]. split.
  { by destruct Hwf. }
  intros pid b Hpid.
  rewrite get_filmovi_id_run. cbn [fst filmovi params_id].
  rewrite (List.filter_ext _ _ (selects_path pid _ Hpid)).
  rewrite select_inserted by done.
  eexists. split; [done|]. cbn [naslov godina zanr id created_at].
  unfold prop. by rewrite Hn, Hg, Hz.
Qed.

(** C9: the creation handler reads [naslov], [godina] and [zanr] from
    the body and nothing else: two requests whose bodies agree on these
    three keys run alike on every storage state, with the same queries
    and bound values, the same answer and the same state afterwards.
    Whatever the body holds, a row the creation adds takes its [id] and
    [created_at] from the storage. *)
Theorem create_ignores_other_fields (db : Db) (req1 req2 : request) :
  (forall c, body req1 !! column_key c = body req2 !! column_key c) ->
  post_filmovi req1 = post_filmovi req2 /\
  run (post_filmovi req1) db = run (post_filmovi req2) db /\
  (filmovi (after (post_filmovi req1) db) = filmovi db \/
   exists m,
     filmovi (after (post_filmovi req1) db) = (filmovi db ++ [m])%list /\
     id m = auto_increment db /\ created_at m = STime (clock db)).
Proof.
  intros Hagree.
  assert (post_filmovi req1 = post_filmovi req2) as Heq.
  { pose proof (Hagree Naslov) as Hn. pose proof (Hagree Godina) as Hg.
    pose proof (Hagree Zanr) as Hz. cbn [column_key] in Hn, Hg, Hz.
    unfold post_filmovi, prop. by rewrite Hn, Hg, Hz. }
  split; [done|]. split; [by rewrite Heq|].
  unfold after. rewrite post_filmovi_run.
  destruct (bind _), naslov_required; cbn [fst snd filmovi];
    first [by left | right; by eexists].
Qed.

(** ** The SQL text *)

Lemma take_same_length {A} (l : list A) (j k : nat) :
  length (take j l) = length (take k l) -> take j l = take k l.
Proof.
  revert j k. induction l as [|x l IH]; intros [|j] [|k]; cbn; try done.
  intros [= H]. f_equal. by apply IH.
Qed.

(** The texts a run sends are an initial part, at least the first
    statement, of the operation's list of statements. *)
Lemma queries_statements r req db :
  exists k,
    (0 < k)%nat /\
    List.map fst (queries (handler r req) db) = take k (statements r).
Proof.
  unfold queries. destruct r; cbn [handler statements].
  - exists 1%nat. split; [lia|]. by rewrite get_filmovi_run.
  - exists 1%nat. split; [lia|]. by rewrite get_filmovi_id_run.
  - rewrite post_filmovi_run.
    destruct (bind _), naslov_required;
      first [ by exists 1%nat; split; [lia|]
            | by exists 2%nat; split; [lia|] ].
  - rewrite put_filmovi_id_run.
    destruct (_ =? 0);
      [exists 1%nat | exists 2%nat]; by (split; [lia|]).
  - exists 1%nat. split; [lia|]. by rewrite delete_filmovi_id_run.
Qed.

(** C1: for each of the five operations the SQL text handed to the pool
    is fixed and does not depend on the request, whose values travel in
    the bound-value array only.  Two requests to the same operation make
    the handler send the same text at every step, given the same answers
    from the pool; against any storage states the texts a run sends are
    an initial part, at least the first one, of the operation's constant
    list of statements, so two runs that send equally many queries send
    identical text. *)
Theorem sql_text_is_constant (r : route) (req1 req2 : request) :
  same_sql (handler r req1) (handler r req2) /\
  (forall db, exists k,
     (0 < k)%nat /\
     List.map fst (queries (handler r req1) db) = take k (statements r)) /\
  (forall db1 db2,
     length (queries (handler r req1) db1)
     = length (queries (handler r req2) db2) ->
     List.map fst (queries (handler r req1) db1)
     = List.map fst (queries (handler r req2) db2)).
Proof.
  split; [|split].
  - destruct r; cbn [handler]; unfold get_filmovi, get_filmovi_id,
      post_filmovi, put_filmovi_id, delete_filmovi_id; cbn [same_sql];
      repeat first
        [ done
        | split; [reflexivity|]
        | intros ?
        | match goal with
          | |- context [if ?c then _ else _] => destruct c; cbn [same_sql]
          end ].
  - intros db. apply queries_statements.
  - intros db1 db2 Hlen.
    destruct (queries_statements r req1 db1) as (k1 & _ & H1).
    destruct (queries_statements r req2 db2) as (k2 & _ & H2).
    rewrite H1, H2. apply take_same_length.
    by rewrite <- H1, <- H2, !length_map.
Qed.

(** ** The table over a session *)

Lemma ids_filter v (l : list Movie) :
  List.map id (List.filter (fun m => negb (selects v m)) l)
  = List.filter (fun i => negb (id_eq v i)) (List.map id l).
Proof.
  induction l as [|m l IH]; [done|].
  cbn [List.filter List.map]. unfold selects at 1.
  destruct (id_eq v (id m)); cbn [negb List.map]; by rewrite IH.
Qed.

Lemma ids_updated v n g z (l : list Movie) :
  List.map id
    (List.map (fun m => if selects v m then set_columns n g z m else m) l)
  = List.map id l.
Proof.
  rewrite List.map_map. apply List.map_ext. intros m.
  by destruct (selects v m).
Qed.

(** What one request does to the ids in the table, told from its
    response. *)
Lemma ids_after r req db :
  wf db ->
  ids (after (handler r req) db)
  = created_not_deleted [(r, req, response (handler r req) db)] (ids db).
Proof.
  intros Hwf. unfold after, response, ids. destruct r; cbn [handler].
  - by rewrite get_filmovi_run.
  - by rewrite get_filmovi_id_run.
  - rewrite post_filmovi_run. cbn [filmovi].
    rewrite select_inserted by done.
    destruct (bind _), naslov_required; cbn [fst snd filmovi];
      first [done | by rewrite List.map_app].
  - rewrite put_filmovi_id_run.
    destruct (_ =? 0); cbn [fst snd filmovi]; by rewrite ids_updated.
  - rewrite delete_filmovi_id_run. cbn [fst snd filmovi].
    destruct (_ =? 0) eqn:E; cbn [created_not_deleted].
    + apply eqb_length_nil in E. by rewrite (filter_none_hit _ _ E).
    + apply ids_filter.
Qed.

Lemma wf_after r req db : wf db -> wf (after (handler r req) db).
Proof.
  intros Hwf. pose proof Hwf as (Hpos & Hnd & Hlt).
  unfold after. destruct r; cbn [handler].
  - by rewrite get_filmovi_run.
  - by rewrite get_filmovi_id_run.
  - rewrite post_filmovi_run.
    assert (wf {| filmovi := filmovi db ++
                    [ {| id := auto_increment db;
                         naslov := bind (prop (body req) "naslov");
                         godina := bind (prop (body req) "godina");
                         zanr := bind (prop (body req) "zanr");
                         created_at := STime (clock db) |} ];
                  auto_increment := auto_increment db + 1;
                  clock := clock db |}) as Hnew.
    { unfold wf, ids in *. cbn [filmovi auto_increment].
      rewrite List.map_app. cbn [List.map id].
      split; [lia|]. split.
      - apply NoDup_app. split; [done|]. split; [|apply NoDup_singleton].
        intros i Hi ->%list_elem_of_singleton.
        rewrite Forall_forall in Hlt. apply Hlt in Hi. lia.
      - apply Forall_app. split.
        + eapply Forall_impl; [exact Hlt|]. intros i Hi. cbn beta in *. lia.
        + apply Forall_singleton. lia. }
    by destruct (bind _), naslov_required.
  - rewrite put_filmovi_id_run.
    assert (wf {| filmovi :=
                    List.map (fun m =>
                      if selects (JStr (params_id req)) m
                      then set_columns (prop (body req) "naslov")
                             (prop (body req) "godina")
                             (prop (body req) "zanr") m
                      else m) (filmovi db);
                  auto_increment := auto_increment db;
                  clock := clock db |}) as Hnew.
    { unfold wf, ids in *. cbn [filmovi auto_increment].
      by rewrite ids_updated. }
    by destruct (_ =? 0).
  - rewrite delete_filmovi_id_run. cbn [fst snd].
    unfold wf, ids in *. cbn [filmovi auto_increment]. rewrite ids_filter.
    split; [done|]. split.
    + by apply NoDup_ListNoDup, List.NoDup_filter, NoDup_ListNoDup.
    + rewrite Forall_forall in Hlt. apply Forall_forall.
      intros i Hi%list_elem_of_In%List.filter_In. destruct Hi as [Hi _].
      by apply Hlt, list_elem_of_In.
Qed.

Lemma created_not_deleted_cons e log live :
  created_not_deleted (e :: log) live
  = created_not_deleted log (created_not_deleted [e] live).
Proof.
  destruct e as [[r req] o].
  destruct r; try reflexivity;
    (destruct o as [status b|]; [|reflexivity]);
    (destruct status as [|p|p]; try reflexivity);
    repeat (destruct p as [p|p|]; try reflexivity).
  destruct b as [| [m|] | |]; reflexivity.
Qed.

Lemma session_ids reqs db :
  wf db ->
  wf (session reqs db).2 /\
  ids (session reqs db).2
  = created_not_deleted (session reqs db).1 (ids db).
Proof.
  revert db. induction reqs as [|[r req] rest IH]; intros db Hwf; [done|].
  cbn [session].
  destruct (session rest (after (handler r req) db)) as [log db'] eqn:E.
  specialize (IH _ (wf_after r req db Hwf)). rewrite E in IH.
  cbn [fst snd] in *. destruct IH as [Hwf' Hids]. split; [done|].
  by rewrite created_not_deleted_cons, <- ids_after.
Qed.

Lemma wf_empty now : wf (empty_db now).
Proof.
  unfold wf, ids. cbn. split; [lia|]. split; [apply NoDup_nil_2 | done].
Qed.

(** ** List *)

(** C8: [list()] answers 200 with the array of all rows the table holds
    at that moment; after any sequence of requests on an initially empty
    table these are, one row each, the ids handed out by the creations
    answered so far and not addressed by a deletion answered 204 since,
    so the array has as many rows as there are such ids. *)
Theorem list_reflects_table (req : request) :
  (forall db,
     response (get_filmovi req) db
     = Sent 200 (JsonResult (Rows (filmovi db)))) /\
  forall (now : Z) (reqs : list (route * request)),
    exists rows,
      response (get_filmovi req) (session reqs (empty_db now)).2
      = Sent 200 (JsonResult (Rows rows)) /\
      List.map id rows
      = created_not_deleted (session reqs (empty_db now)).1 [] /\
      NoDup (List.map id rows) /\
      length rows
      = length (created_not_deleted (session reqs (empty_db now)).1 []).
Proof.
  assert (forall db, response (get_filmovi req) db
                     = Sent 200 (JsonResult (Rows (filmovi db)))) as Hlist.
  { intros db. unfold response. by rewrite get_filmovi_run. }
  split; [done|]. intros now reqs.
  destruct (session_ids reqs (empty_db now) (wf_empty now))
    as [(_ & Hnd & _) Hids].
  exists (filmovi (session reqs (empty_db now)).2).
  split; [apply Hlist|]. split; [exact Hids|]. split; [exact Hnd|].
  change (ids (empty_db now)) with (@nil Z) in Hids.
  rewrite <- Hids. unfold ids. by rewrite length_map.
Qed.

(** ** How the operations compose *)

Lemma COALESCE_twice v old : COALESCE v (COALESCE v old) = COALESCE v old.
Proof. by destruct v. Qed.

Lemma set_columns_twice n g z m :
  set_columns n g z (set_columns n g z m) = set_columns n g z m.
Proof. unfold set_columns. cbn. by rewrite !COALESCE_twice. Qed.

Lemma set_columns_null n g z m :
  bind n = SNull -> bind g = SNull -> bind z = SNull ->
  set_columns n g z m = m.
Proof. intros Hn Hg Hz. unfold set_columns. rewrite Hn, Hg, Hz. by destruct m. Qed.

Lemma updated_twice v n g z (l : list Movie) :
  List.map (fun m => if selects v m then set_columns n g z m else m)
    (List.map (fun m => if selects v m then set_columns n g z m else m) l)
  = List.map (fun m => if selects v m then set_columns n g z m else m) l.
Proof.
  rewrite List.map_map. apply List.map_ext. intros m.
  destruct (selects v m) eqn:E.
  - by rewrite selects_set_columns, E, set_columns_twice.
  - by rewrite E.
Qed.

Lemma head_map {A B} (f : A -> B) (l : list A) :
  head (List.map f l) = option_map f (head l).
Proof. by destruct l. Qed.

(** The answer of an update, told from the rows its id selects. *)
Lemma put_filmovi_id_response db req :
  response (put_filmovi_id req) db
  = match List.filter (selects (JStr (params_id req))) (filmovi db) with
    | [] => Sent 404 not_found
    | m :: _ =>
        Sent 200 (JsonRow (Some (set_columns (prop (body req) "naslov")
                                   (prop (body req) "godina")
                                   (prop (body req) "zanr") m)))
    end.
Proof.
  unfold response. rewrite put_filmovi_id_run.
  by destruct (List.filter _ _).
Qed.

Lemma put_filmovi_id_after db req :
  after (put_filmovi_id req) db
  = {| filmovi :=
         List.map (fun m => if selects (JStr (params_id req)) m
                            then set_columns (prop (body req) "naslov")
                                   (prop (body req) "godina")
                                   (prop (body req) "zanr") m
                            else m) (filmovi db);
       auto_increment := auto_increment db;
       clock := clock db |}.
Proof. unfold after. rewrite put_filmovi_id_run. by destruct (_ =? 0). Qed.

Lemma delete_filmovi_id_after db req :
  after (delete_filmovi_id req) db
  = {| filmovi :=
         List.filter (fun m => negb (selects (JStr (params_id req)) m))
           (filmovi db);
       auto_increment := auto_increment db;
       clock := clock db |}.
Proof. unfold after. by rewrite delete_filmovi_id_run. Qed.

Lemma delete_filmovi_id_response db req :
  response (delete_filmovi_id req) db
  = match List.filter (selects (JStr (params_id req))) (filmovi db) with
    | [] => Sent 404 not_found
    | _ :: _ => Sent 204 NoBody
    end.
Proof.
  unfold response. rewrite delete_filmovi_id_run.
  by destruct (List.filter _ _).
Qed.

(** X1: a read of an id right after an update of that id answers exactly
    what the update answered: the same 200 with the same row, or the same
    404. *)
Theorem get_after_update_same_answer (db : Db) (req : request)
    (b : gmap string jsval) :
  response (get_filmovi_id {| params_id := params_id req; body := b |})
    (after (put_filmovi_id req) db)
  = response (put_filmovi_id req) db.
Proof.
  rewrite get_filmovi_id_response, put_filmovi_id_response,
    put_filmovi_id_after.
  cbn [filmovi params_id]. rewrite filter_updated.
  by destruct (List.filter _ _).
Qed.

(** X2: an update is idempotent: sent a second time it leaves the storage
    as the first left it and gets the same answer. *)
Theorem update_idempotent (db : Db) (req : request) :
  after (put_filmovi_id req) (after (put_filmovi_id req) db)
  = after (put_filmovi_id req) db /\
  response (put_filmovi_id req) (after (put_filmovi_id req) db)
  = response (put_filmovi_id req) db.
Proof.
  rewrite !put_filmovi_id_response, !put_filmovi_id_after.
  cbn [filmovi auto_increment clock].
  rewrite updated_twice, filter_updated. split; [done|].
  destruct (List.filter _ _) as [|m l]; [done|].
  cbn [List.map]. by rewrite set_columns_twice.
Qed.

(** X3: an update whose body gives no value for [naslov], [godina] or
    [zanr] (each is absent or null) changes nothing and answers as a read
    of that id does: 200 with the stored row, or 404. *)
Theorem update_without_values_reads (db : Db) (req : request) :
  (forall c,
     body req !! column_key c = None \/
     body req !! column_key c = Some JNull) ->
  after (put_filmovi_id req) db = db /\
  response (put_filmovi_id req) db = response (get_filmovi_id req) db.
Proof.
  intros Hnone.
  assert (forall c, bind (prop (body req) (column_key c)) = SNull) as Hnull.
  { intros c. unfold prop. by destruct (Hnone c) as [-> | ->]. }
  pose proof (Hnull Naslov) as Hn. pose proof (Hnull Godina) as Hg.
  pose proof (Hnull Zanr) as Hz. cbn [column_key] in Hn, Hg, Hz.
  rewrite put_filmovi_id_response, put_filmovi_id_after,
    get_filmovi_id_response.
  split.
  - rewrite <- (db_eta db) at 4. f_equal.
    rewrite <- (List.map_id (filmovi db)) at 2. apply List.map_ext.
    intros m. destruct (selects _ m); [|done].
    by apply set_columns_null.
  - destruct (List.filter _ _) as [|m l]; [done|].
    by rewrite set_columns_null.
Qed.

(** X4: a delete sent a second time finds nothing: it answers 404 and
    leaves the storage as the first delete left it. *)
Theorem delete_twice_not_found (db : Db) (req : request) :
  response (delete_filmovi_id req) (after (delete_filmovi_id req) db)
  = Sent 404 not_found /\
  after (delete_filmovi_id req) (after (delete_filmovi_id req) db)
  = after (delete_filmovi_id req) db.
Proof.
  rewrite delete_filmovi_id_response, !delete_filmovi_id_after.
  cbn [filmovi auto_increment clock].
  rewrite filter_hit_gone. split; [done|]. f_equal.
  apply filter_none_hit, filter_hit_gone.
Qed.

(** ** One id, one row *)

Lemma id_eq_same v i j : id_eq v i = true -> id_eq v j = true -> i = j.
Proof.
  unfold id_eq. destruct v as [| |b|n|p]; try done.
  - intros ?%Z.eqb_eq ?%Z.eqb_eq. lia.
  - intros ?%Z.eqb_eq ?%Z.eqb_eq. lia.
  - destruct (str_num p); [|done]. intros ?%Z.eqb_eq ?%Z.eqb_eq. lia.
Qed.

Lemma filter_no_id v (l : list Movie) i :
  id_eq v i = true -> ~ In i (List.map id l) -> List.filter (selects v) l = [].
Proof.
  intros Hv. induction l as [|x l IH]; [done|]. cbn [List.map List.filter].
  intros Hin. destruct (selects v x) eqn:E.
  - destruct Hin. left. by apply (id_eq_same v).
  - apply IH. intros ?. apply Hin. by right.
Qed.

(** Under the primary key a bound value selects no row or one. *)
Lemma selects_at_most_one v (l : list Movie) :
  NoDup (List.map id l) ->
  List.filter (selects v) l = [] \/
  exists m, List.filter (selects v) l = [m].
Proof.
  induction l as [|x l IH]; [by left|]. cbn [List.map List.filter].
  intros [Hx Hl]%NoDup_cons.
  destruct (selects v x) eqn:E.
  - right. exists x. f_equal. apply (filter_no_id v l (id x) E).
    by rewrite <- list_elem_of_In.
  - by apply IH.
Qed.

Lemma filter_In_head {A} (f : A -> bool) (l : list A) x :
  head (List.filter f l) = Some x -> In x l /\ f x = true.
Proof.
  intros H. apply List.filter_In.
  destruct (List.filter f l) as [|y l'] eqn:E; [done|].
  injection H as ->. by left.
Qed.

Lemma length_filter_split {A} (f : A -> bool) (l : list A) :
  (length (List.filter f l) + length (List.filter (fun x => negb (f x)) l)
   = length l)%nat.
Proof.
  induction l as [|x l IH]; [done|]. cbn [List.filter].
  destruct (f x); cbn [negb length]; lia.
Qed.

(** X5: under the primary key, a read by a path the engine reads as the
    id [i] answers 200 with a row exactly when that row is in the table
    and has the id [i], and answers 404 exactly when no row has it. *)
Theorem get_by_id_finds_the_row (db : Db) (req : request) (i : Z) :
  wf db ->
  str_num (params_id req) = Some i ->
  (forall m,
     response (get_filmovi_id req) db = Sent 200 (JsonRow (Some m)) <->
     In m (filmovi db) /\ id m = i) /\
  (response (get_filmovi_id req) db = Sent 404 not_found <->
   ~ In i (ids db)).
Proof.
  intros (_ & Hnd & _) Hi. rewrite get_filmovi_id_response.
  assert (forall m, selects (JStr (params_id req)) m = true <-> id m = i)
    as Hsel.
  { intros m. unfold selects, id_eq. rewrite Hi, Z.eqb_eq. split; intros; lia. }
  split.
  - intros m. split.
    + destruct (List.filter _ _) as [|x l] eqn:E; [done|].
      intros [= ->].
      assert (In m (List.filter (selects (JStr (params_id req))) (filmovi db)))
        as Hin by (rewrite E; by left).
      apply List.filter_In in Hin as [Hin Hm]. by rewrite <- Hsel.
    + intros [Hin Hm].
      assert (In m (List.filter (selects (JStr (params_id req))) (filmovi db)))
        as Hin' by (apply List.filter_In; by rewrite Hsel).
      destruct (selects_at_most_one (JStr (params_id req)) _ Hnd)
        as [E | [x E]]; rewrite E in Hin' |- *; [done|].
      destruct Hin' as [-> | []]. done.
  - split.
    + destruct (List.filter _ _) as [|x l] eqn:E; [|done].
      intros _ (m & Hm & Hin)%List.in_map_iff.
      assert (In m (List.filter (selects (JStr (params_id req))) (filmovi db)))
        as Hin' by (apply List.filter_In; by rewrite Hsel).
      by rewrite E in Hin'.
    + intros Hnot. rewrite (filter_no_id _ _ i); [done| |done].
      unfold id_eq. by rewrite Hi, Z.eqb_refl.
Qed.

(** X6: under the primary key a delete removes one row or none: it either
    answers 204 and the table has one row less, or it answers 404 and the
    storage is as it was. *)
Theorem delete_removes_at_most_one_row (db : Db) (req : request) :
  wf db ->
  (response (delete_filmovi_id req) db = Sent 204 NoBody /\
   S (length (filmovi (after (delete_filmovi_id req) db)))
   = length (filmovi db)) \/
  (response (delete_filmovi_id req) db = Sent 404 not_found /\
   after (delete_filmovi_id req) db = db).
Proof.
  intros (_ & Hnd & _).
  rewrite delete_filmovi_id_response, delete_filmovi_id_after.
  cbn [filmovi].
  pose proof (length_filter_split (selects (JStr (params_id req)))
                (filmovi db)) as Hlen.
  destruct (selects_at_most_one (JStr (params_id req)) _ Hnd)
    as [E | [x E]]; rewrite E in Hlen |- *.
  - right. split; [done|]. rewrite (filter_none_hit _ _ E). apply db_eta.
  - left. split; [done|]. cbn [length] in Hlen. lia.
Qed.

(** ** Writes to one id and reads of another *)

Lemma selects_other p p' :
  str_num p <> str_num p' ->
  forall m, selects (JStr p') m = true -> selects (JStr p) m = false.
Proof.
  intros Hne m. unfold selects, id_eq.
  destruct (str_num p) as [i|], (str_num p') as [j|]; try done.
  intros ->%Z.eqb_eq. apply Z.eqb_neq. congruence.
Qed.

Lemma filter_updated_other v v' n g z (l : list Movie) :
  (forall m, selects v' m = true -> selects v m = false) ->
  List.filter (selects v')
    (List.map (fun m => if selects v m then set_columns n g z m else m) l)
  = List.filter (selects v') l.
Proof.
  intros Hother. induction l as [|m l IH]; [done|].
  cbn [List.map List.filter]. rewrite IH.
  destruct (selects v m) eqn:E.
  - rewrite selects_set_columns.
    destruct (selects v' m) eqn:E'; [|done].
    apply Hother in E'. congruence.
  - done.
Qed.

Lemma filter_deleted_other v v' (l : list Movie) :
  (forall m, selects v' m = true -> selects v m = false) ->
  List.filter (selects v') (List.filter (fun m => negb (selects v m)) l)
  = List.filter (selects v') l.
Proof.
  intros Hother. induction l as [|m l IH]; [done|]. cbn [List.filter].
  destruct (selects v m) eqn:E; cbn [negb List.filter]; rewrite IH.
  - destruct (selects v' m) eqn:E'; [|done].
    apply Hother in E'. congruence.
  - done.
Qed.

(** X7: an update or a delete of one id does not show in a read of
    another: when the engine reads the two paths differently, the read
    answers after the write as it did before. *)
Theorem write_leaves_other_ids (db : Db) (req req' : request) :
  str_num (params_id req) <> str_num (params_id req') ->
  response (get_filmovi_id req') (after (put_filmovi_id req) db)
  = response (get_filmovi_id req') db /\
  response (get_filmovi_id req') (after (delete_filmovi_id req) db)
  = response (get_filmovi_id req') db.
Proof.
  intros Hne. pose proof (selects_other _ _ Hne) as Hother.
  rewrite !get_filmovi_id_response, put_filmovi_id_after,
    delete_filmovi_id_after.
  cbn [filmovi].
  by rewrite filter_updated_other, filter_deleted_other.
Qed.

(** X8: a creation does not show in a read of an id other than the one
    it hands out: such a read answers after the creation as it did
    before, whether or not the storage accepted the insert. *)
Theorem create_leaves_other_ids (db : Db) (req req' : request) :
  str_num (params_id req') <> Some (auto_increment db) ->
  response (get_filmovi_id req') (after (post_filmovi req) db)
  = response (get_filmovi_id req') db.
Proof.
  intros Hne. rewrite !get_filmovi_id_response. unfold after.
  rewrite post_filmovi_run.
  assert (forall m, id m = auto_increment db ->
                    selects (JStr (params_id req')) m = false) as Hnew.
  { intros m Hm. unfold selects, id_eq.
    destruct (str_num (params_id req')) as [j|]; [|done].
    apply Z.eqb_neq. congruence. }
  destruct (bind _), naslov_required; cbn [fst snd filmovi]; try done;
    rewrite List.filter_app; cbn [List.filter];
    rewrite Hnew by done; by rewrite List.app_nil_r.
Qed.


(** ** Ids handed out *)

(** The re-read of a creation always finds a row with the new id. *)
Lemma head_select_inserted (l : list Movie) x :
  exists m,
    head (List.filter (selects (JNum (id x))) (l ++ [x])) = Some m /\
    id m = id x.
Proof.
  assert (selects (JNum (id x)) x = true) as Hx
    by (unfold selects, id_eq; apply Z.eqb_refl).
  destruct (head (List.filter (selects (JNum (id x))) (l ++ [x])))
    as [m|] eqn:E.
  - exists m. split; [done|]. apply filter_In_head in E as [_ E].
    unfold selects, id_eq in E. apply Z.eqb_eq in E. lia.
  - exfalso. rewrite List.filter_app in E. cbn [List.filter] in E.
    rewrite Hx in E. by destruct (List.filter _ l).
Qed.

Lemma created_ids_cons e log :
  created_ids (e :: log) = (created_ids [e] ++ created_ids log)%list.
Proof.
  destruct e as [[r req] o].
  destruct r; try reflexivity;
    (destruct o as [status b|]; [|reflexivity]);
    (destruct status as [|p|p]; try reflexivity);
    repeat (destruct p as [p|p|]; try reflexivity).
  destruct b as [| [m|] | |]; reflexivity.
Qed.

(** What one request adds to the ids handed out, and to the counter. *)
Lemma created_ids_one r req db :
  (created_ids [(r, req, response (handler r req) db)] = [] /\
   auto_increment (after (handler r req) db) = auto_increment db) \/
  (created_ids [(r, req, response (handler r req) db)] = [auto_increment db] /\
   auto_increment (after (handler r req) db) = auto_increment db + 1).
Proof.
  unfold response, after. destruct r; cbn [handler].
  - left. by rewrite get_filmovi_run.
  - left. by rewrite get_filmovi_id_run.
  - rewrite post_filmovi_run. cbn [filmovi].
    set (x := {| id := auto_increment db;
                 naslov := bind (prop (body req) "naslov");
                 godina := bind (prop (body req) "godina");
                 zanr := bind (prop (body req) "zanr");
                 created_at := STime (clock db) |}).
    destruct (head_select_inserted (filmovi db) x) as (m & Hm & Hid).
    cbn [id x] in Hm, Hid.
    destruct (bind _), naslov_required; cbn [fst snd auto_increment];
      first [ by left | right; rewrite Hm; cbn [created_ids]; by rewrite Hid ].
  - left. rewrite put_filmovi_id_run. by destruct (_ =? 0).
  - left. rewrite delete_filmovi_id_run. by destruct (_ =? 0).
Qed.

(** X10: ids are never handed out twice: over any sequence of requests,
    from any storage state, the ids in the answers to the creations are
    strictly increasing, none is below the counter the sequence started
    with, all are below the counter it ends with, and the counter never
    goes back. *)
Theorem created_ids_increase (reqs : list (route * request)) (db : Db) :
  StronglySorted Z.lt (created_ids (session reqs db).1) /\
  Forall (fun i => auto_increment db <= i < auto_increment (session reqs db).2)
    (created_ids (session reqs db).1) /\
  auto_increment db <= auto_increment (session reqs db).2.
Proof.
  revert db. induction reqs as [|[r req] rest IH]; intros db.
  { cbn. split; [constructor|]. split; [constructor | lia]. }
  cbn [session].
  destruct (session rest (after (handler r req) db)) as [log db'] eqn:E.
  specialize (IH (after (handler r req) db)). rewrite E in IH.
  cbn [fst snd] in *. destruct IH as (Hsorted & Hbound & Hmono).
  rewrite created_ids_cons.
  destruct (created_ids_one r req db) as [[-> Hai] | [-> Hai]];
    rewrite Hai in *; cbn [app].
  - done.
  - split; [|split; [|lia]].
    + constructor; [done|].
      eapply Forall_impl; [exact Hbound|]. intros i Hi. cbn beta in Hi. lia.
    + constructor; [lia|].
      eapply Forall_impl; [exact Hbound|]. intros i Hi. cbn beta in *. lia.
Qed.

(** X11: the handlers keep the primary key: from a table whose ids are
    positive, pairwise distinct and below the counter, every sequence of
    requests leads to such a table again. *)
Theorem primary_key_kept (reqs : list (route * request)) (db : Db) :
  wf db -> wf (session reqs db).2.
Proof. intros Hwf. by apply session_ids. Qed.

(** ** The shape of queries and answers *)

(** X12: every query a handler sends carries exactly as many bound values
    as its SQL text has placeholders. *)
Theorem bound_values_match_placeholders (r : route) (req : request)
    (db : Db) :
  Forall (fun q => length q.2 = placeholders q.1)
    (queries (handler r req) db).
Proof.
  unfold queries. destruct r; cbn [handler].
  - rewrite get_filmovi_run. by repeat constructor.
  - rewrite get_filmovi_id_run. by repeat constructor.
  - rewrite post_filmovi_run.
    destruct (bind _), naslov_required; by repeat constructor.
  - rewrite put_filmovi_id_run. destruct (_ =? 0); by repeat constructor.
  - rewrite delete_filmovi_id_run. by repeat constructor.
Qed.


(** ** Create, then delete *)

Lemma select_fresh db :
  wf db ->
  List.filter (selects (JNum (auto_increment db))) (filmovi db) = [].
Proof.
  intros (_ & _ & Hlt). apply (filter_no_id _ _ (auto_increment db)).
  - unfold id_eq. apply Z.eqb_refl.
  - fold (ids db). rewrite Forall_forall in Hlt.
    intros Hin%list_elem_of_In%Hlt. lia.
Qed.

(** X15: deleting the id a creation has just handed out answers 204 and
    gives back the rows the table had before the creation, in their
    order; the counter stays advanced, so that id is not handed out
    again. *)
Theorem create_then_delete_restores_rows (db : Db) (req req' : request) :
  wf db ->
  naslov_required = false \/ bind (prop (body req) "naslov") <> SNull ->
  str_num (params_id req') = Some (auto_increment db) ->
  response (delete_filmovi_id req') (after (post_filmovi req) db)
  = Sent 204 NoBody /\
  filmovi (after (delete_filmovi_id req') (after (post_filmovi req) db))
  = filmovi db /\
  auto_increment
    (after (delete_filmovi_id req') (after (post_filmovi req) db))
  = auto_increment db + 1.
Proof.
  intros Hwf Hok Hpid.
  pose proof (post_filmovi_accepted db req Hwf Hok) as Hrun.
  cbn zeta in Hrun.
  assert (after (post_filmovi req) db = (run (post_filmovi req) db).1.2)
    as Hafter by done.
  rewrite Hrun in Hafter. cbn [fst snd] in Hafter.
  rewrite delete_filmovi_id_response, delete_filmovi_id_after, Hafter.
  cbn [filmovi auto_increment].
  rewrite (List.filter_ext _ _ (selects_path _ _ Hpid)).
  rewrite select_inserted by done. split; [done|]. split; [|done].
  rewrite (List.filter_ext (fun m => negb (selects (JStr (params_id req')) m))
             (fun m => negb (selects (JNum (auto_increment db)) m)))
    by (intros m; by rewrite (selects_path _ _ Hpid)).
  rewrite List.filter_app.
  rewrite (filter_none_hit _ _ (select_fresh db Hwf)).
  cbn [List.filter]. unfold selects at 1. cbn [id id_eq].
  rewrite Z.eqb_refl. cbn [negb]. apply List.app_nil_r.
Qed.

End Storage.

(** ** The port *)

(** X14: the port is never left undefined: with [PORT] unset or empty it
    is the number 3000, and any non-empty [PORT] is taken as it stands;
    the liveness text and the server url of the API description end in
    that same port. *)
Theorem port_defaults (env_PORT : option string) :
  falsy (port env_PORT) = false /\
  (env_PORT = None \/ env_PORT = Some "" ->
   port env_PORT = JNum 3000 /\
   root_message env_PORT = "✅ Server je živ na portu 3000" /\
   server_url env_PORT = "http://localhost:3000") /\
  (forall s, env_PORT = Some s -> s <> "" ->
   port env_PORT = JStr s /\
   root_message env_PORT = String.append "✅ Server je živ na portu " s /\
   server_url env_PORT = String.append "http://localhost:" s).
Proof.
  unfold root_message, server_url, port.
  destruct env_PORT as [s|]; cbn [falsy].
  - destruct (String.eqb_spec s "") as [-> | Hs].
    + split; [done|]. split; [done|]. by intros s [= <-].
    + cbn [falsy]. rewrite (proj2 (String.eqb_neq s "") Hs).
      split; [done|]. split.
      * intros [[=] | [= ->]]. done.
      * by intros s' [= <-] _.
  - split; [done|]. split; [done|]. by intros s [=].
Qed.

(** ** Ids in the request path *)

(** The decimal reader reads the path segment of an id as that id. *)
Lemma read_decimal_path_of_id (i : Z) :
  0 <= i -> read_decimal (path_of_id i) = Some i.
Proof.
  intros Hi. unfold read_decimal, path_of_id.
  rewrite NilZero.usu.
  - cbn [option_map]. by rewrite DecimalN.Unsigned.of_to, Z2N.id.
  - destruct (Z.to_N i) as [|p]; [done|].
    apply DecimalPos.Unsigned.to_uint_nonnil.
Qed.

(** ** Instances *)

(** The theorems above at the decimal reader, a schema without a NOT NULL
    constraint and the empty table. *)

Lemma create_inserts_one_row_witness :
  wf (empty_db 7) /\
  exists m,
    filmovi (after read_decimal false (post_filmovi inception) (empty_db 7))
    = (filmovi (empty_db 7) ++ [m])%list /\
    id m = auto_increment (empty_db 7) /\
    ~ In (id m) (ids (empty_db 7)) /\
    created_at m = STime (clock (empty_db 7)) /\
    (forall c, cell c m = bind (prop (body inception) (column_key c))) /\
    pool_query read_decimal false SELECT_BY_ID [JNum (id m)]
      (after read_decimal false (post_filmovi inception) (empty_db 7))
    = Some (Rows [m],
            after read_decimal false (post_filmovi inception) (empty_db 7)) /\
    response read_decimal false (post_filmovi inception) (empty_db 7)
    = Sent 201 (JsonRow (Some m)).
Proof.
  assert (wf (empty_db 7)) as Hwf.
  { unfold wf, ids. cbn. split; [lia|]. split; constructor. }
  split; [exact Hwf|].
  apply (create_inserts_one_row read_decimal false (empty_db 7) inception Hwf).
  left. reflexivity.
Defined.

Lemma create_then_get_by_id_witness :
  wf (empty_db 7) /\
  body inception !! "naslov" = Some (JStr "Inception") /\
  body inception !! "godina" = Some (JNum 2010) /\
  body inception !! "zanr" = Some (JStr "Sci-Fi") /\
  exists m,
    response read_decimal false (post_filmovi inception) (empty_db 7)
    = Sent 201 (JsonRow (Some m)) /\
    0 < id m /\
    forall (pid : string) (b : gmap string jsval),
      read_decimal pid = Some (id m) ->
      exists m',
        response read_decimal false
          (get_filmovi_id {| params_id := pid; body := b |})
          (after read_decimal false (post_filmovi inception) (empty_db 7))
        = Sent 200 (JsonRow (Some m')) /\
        naslov m' = SStr "Inception" /\ godina m' = SInt 2010 /\
        zanr m' = SStr "Sci-Fi" /\
        id m' = id m /\ created_at m' <> SNull.
Proof.
  assert (wf (empty_db 7)) as Hwf.
  { unfold wf, ids. cbn. split; [lia|]. split; constructor. }
  split; [exact Hwf|].
  split; [reflexivity|]. split; [reflexivity|]. split; [reflexivity|].
  apply (create_then_get_by_id read_decimal false (empty_db 7) inception
           "Inception" 2010 "Sci-Fi" Hwf);
    reflexivity.
Defined.

Lemma create_ignores_other_fields_witness :
  (forall c,
     body inception !! column_key c = body inception_with_id !! column_key c) /\
  post_filmovi inception = post_filmovi inception_with_id /\
  run read_decimal false (post_filmovi inception) (empty_db 7)
  = run read_decimal false (post_filmovi inception_with_id) (empty_db 7).
Proof.
  assert (forall c,
            body inception !! column_key c
            = body inception_with_id !! column_key c) as Hagree.
  { intros []; reflexivity. }
  split; [exact Hagree|].
  destruct (create_ignores_other_fields read_decimal false (empty_db 7)
              inception inception_with_id Hagree) as (Hio & Hrun & _).
  split; [exact Hio|]. exact (Hrun).
Defined.

(** The scenario of the spec, run on the model: create, read back, change
    the year, delete, read again. *)
Example scenario :
  let serve r req db := run read_decimal true (handler r req) db in
  let one b := {| params_id := "1"; body := b |} in
  let m := {| id := 1; naslov := SStr "Inception"; godina := SInt 2010;
              zanr := SStr "Sci-Fi"; created_at := STime 7 |} in
  let m' := {| id := 1; naslov := SStr "Inception"; godina := SInt 2011;
               zanr := SStr "Sci-Fi"; created_at := STime 7 |} in
  let '(o1, db1, _) := serve Create inception (empty_db 7) in
  let '(o2, db2, _) := serve GetById (one ∅) db1 in
  let '(o3, db3, _) := serve Update (one {[ "godina" := JNum 2011 ]}) db2 in
  let '(o4, db4, _) := serve Delete (one ∅) db3 in
  let '(o5, db5, _) := serve GetById (one ∅) db4 in
  o1 = Sent 201 (JsonRow (Some m)) /\
  o2 = Sent 200 (JsonRow (Some m)) /\
  o3 = Sent 200 (JsonRow (Some m')) /\
  o4 = Sent 204 NoBody /\
  o5 = Sent 404 not_found /\
  filmovi db5 = [].
Proof. vm_compute. repeat split. Qed.

Lemma wf_one_film : wf one_film.
Proof.
  unfold wf, ids. cbn. split; [lia|]. split.
  - apply NoDup_singleton.
  - repeat constructor; lia.
Qed.

Lemma update_without_values_reads_witness :
  (forall c,
     body (at_path "1" ∅) !! column_key c = None \/
     body (at_path "1" ∅) !! column_key c = Some JNull) /\
  after read_decimal false (put_filmovi_id (at_path "1" ∅)) one_film = one_film /\
  response read_decimal false (put_filmovi_id (at_path "1" ∅)) one_film
  = response read_decimal false (get_filmovi_id (at_path "1" ∅)) one_film.
Proof.
  assert (forall c,
            body (at_path "1" ∅) !! column_key c = None \/
            body (at_path "1" ∅) !! column_key c = Some JNull) as Hnone.
  { intros []; left; reflexivity. }
  split; [exact Hnone|].
  exact (update_without_values_reads read_decimal false one_film (at_path "1" ∅)
           Hnone).
Defined.

Lemma get_by_id_finds_the_row_witness :
  wf one_film /\
  read_decimal (params_id (at_path "1" ∅)) = Some 1 /\
  (forall m,
     response read_decimal false (get_filmovi_id (at_path "1" ∅)) one_film
     = Sent 200 (JsonRow (Some m)) <->
     In m (filmovi one_film) /\ id m = 1) /\
  (response read_decimal false (get_filmovi_id (at_path "1" ∅)) one_film
   = Sent 404 not_found <->
   ~ In 1 (ids one_film)).
Proof.
  split; [exact wf_one_film|]. split; [reflexivity|].
  apply (get_by_id_finds_the_row read_decimal false one_film (at_path "1" ∅) 1).
  - exact wf_one_film.
  - reflexivity.
Defined.

Lemma delete_removes_at_most_one_row_witness :
  wf one_film /\
  ((response read_decimal false (delete_filmovi_id (at_path "1" ∅)) one_film
    = Sent 204 NoBody /\
    S (length (filmovi (after read_decimal false
                          (delete_filmovi_id (at_path "1" ∅)) one_film)))
    = length (filmovi one_film)) \/
   (response read_decimal false (delete_filmovi_id (at_path "1" ∅)) one_film
    = Sent 404 not_found /\
    after read_decimal false (delete_filmovi_id (at_path "1" ∅)) one_film
    = one_film)).
Proof.
  split; [exact wf_one_film|].
  apply (delete_removes_at_most_one_row read_decimal false one_film
           (at_path "1" ∅)).
  exact wf_one_film.
Defined.

Lemma write_leaves_other_ids_witness :
  read_decimal (params_id (at_path "2" {[ "godina" := JNum 2011 ]}))
  <> read_decimal (params_id (at_path "1" ∅)) /\
  response read_decimal false (get_filmovi_id (at_path "1" ∅))
    (after read_decimal false
       (put_filmovi_id (at_path "2" {[ "godina" := JNum 2011 ]})) one_film)
  = response read_decimal false (get_filmovi_id (at_path "1" ∅)) one_film /\
  response read_decimal false (get_filmovi_id (at_path "1" ∅))
    (after read_decimal false
       (delete_filmovi_id (at_path "2" {[ "godina" := JNum 2011 ]})) one_film)
  = response read_decimal false (get_filmovi_id (at_path "1" ∅)) one_film.
Proof.
  assert (read_decimal (params_id (at_path "2" {[ "godina" := JNum 2011 ]}))
          <> read_decimal (params_id (at_path "1" ∅))) as Hne.
  { vm_compute. discriminate. }
  split; [exact Hne|].
  exact (write_leaves_other_ids read_decimal false one_film
           (at_path "2" {[ "godina" := JNum 2011 ]}) (at_path "1" ∅) Hne).
Defined.

Lemma create_leaves_other_ids_witness :
  read_decimal (params_id (at_path "1" ∅)) <> Some (auto_increment one_film) /\
  response read_decimal false (get_filmovi_id (at_path "1" ∅))
    (after read_decimal false (post_filmovi inception) one_film)
  = response read_decimal false (get_filmovi_id (at_path "1" ∅)) one_film.
Proof.
  assert (read_decimal (params_id (at_path "1" ∅))
          <> Some (auto_increment one_film)) as Hne.
  { vm_compute. discriminate. }
  split; [exact Hne|].
  exact (create_leaves_other_ids read_decimal false one_film inception
           (at_path "1" ∅) Hne).
Defined.


Lemma primary_key_kept_witness :
  wf one_film /\
  wf (session read_decimal false
        [(Create, inception); (Delete, at_path "1" ∅)] one_film).2.
Proof.
  split; [exact wf_one_film|].
  apply (primary_key_kept read_decimal false
           [(Create, inception); (Delete, at_path "1" ∅)] one_film).
  exact wf_one_film.
Defined.

Lemma create_then_delete_restores_rows_witness :
  wf one_film /\
  (false = false \/ bind (prop (body inception) "naslov") <> SNull) /\
  read_decimal (params_id (at_path "2" ∅)) = Some (auto_increment one_film) /\
  response read_decimal false (delete_filmovi_id (at_path "2" ∅))
    (after read_decimal false (post_filmovi inception) one_film)
  = Sent 204 NoBody /\
  filmovi (after read_decimal false (delete_filmovi_id (at_path "2" ∅))
             (after read_decimal false (post_filmovi inception) one_film))
  = filmovi one_film /\
  auto_increment
    (after read_decimal false (delete_filmovi_id (at_path "2" ∅))
       (after read_decimal false (post_filmovi inception) one_film))
  = auto_increment one_film + 1.
Proof.
  split; [exact wf_one_film|]. split; [by left|]. split; [reflexivity|].
  apply (create_then_delete_restores_rows read_decimal false one_film
           inception (at_path "2" ∅)).
  - exact wf_one_film.
  - by left.
  - reflexivity.
Defined.
